(** * CNIOExtrasZlib.h: the zlib shim of swift-nio-extras

    The header defines three [static inline] functions:

    - [CNIOExtrasZlib_deflateInit2] and [CNIOExtrasZlib_inflateInit2], each
      of which returns the value of one use of a zlib macro;
    - [CNIOExtrasZlib_voidPtr_to_BytefPtr], a pointer cast.

    A C function body is embedded as a program over the effects a body of
    this header could have on the machine: reading a byte, writing a byte,
    and calling into zlib.  zlib itself is an interface ([Machine]); every
    theorem holds for all its implementations. *)

From Stdlib Require Import ZArith NArith List String Ascii Bool Lia.
From Stdlib Require Import Init.Byte.
Import ListNotations.

Local Open Scope Z_scope.

(** ** C data *)

Module C.

(** [int]: the shim does no arithmetic on its [int] parameters, so a value
    is carried as the integer it denotes. *)
Definition int : Type := Z.

Definition INT_MIN : Z := - 2 ^ 31.
Definition INT_MAX : Z := 2 ^ 31 - 1.

(** The conversion [(int)e] of an unsigned [size_t] value: reduction modulo
    [2^32] into the range of [int]. *)
Definition int_of_size_t (n : Z) : int :=
  (n + 2 ^ 31) mod 2 ^ 32 - 2 ^ 31.

(** The pointee types the header mentions: [void], [Bytef] (zlib's
    [unsigned char]) and [z_stream]. *)
Inductive ctype : Type :=
| Tvoid
| TBytef
| Tz_stream.

(** A pointer is an address together with its static pointee type. *)
Record ptr (t : ctype) : Type := Ptr { addr : N }.

Arguments Ptr t addr : clear implicits.
Arguments addr {t} p.

Definition NULL (t : ctype) : ptr t := Ptr t 0%N.

Definition is_null {t : ctype} (p : ptr t) : bool := (addr p =? 0)%N.

(** The pointer conversion [(T * )p] between object pointer types: the
    address is kept, only the static type changes. *)
Definition cast {s : ctype} (t : ctype) (p : ptr s) : ptr t :=
  Ptr t (addr p).

End C.

Import C.

(** ** The part of zlib the header names *)

(** [z_streamp] is zlib's name for [z_stream *]. *)
Definition z_streamp : Type := ptr Tz_stream.

(** Modelled from the spec: [<zlib.h>] is included by the header but is not
    part of this repository.  These are the result codes of zlib's
    initialization routines that the statements below name. *)
Definition Z_OK : int := 0.
Definition Z_STREAM_ERROR : int := -2.
Definition Z_VERSION_ERROR : int := -6.

(** Modelled from the spec: the two compile-time constants of [<zlib.h>]
    that its initialization macros insert, [ZLIB_VERSION] and
    [sizeof(z_stream)], as the header saw them when it was compiled. *)
Class zlib_header : Type := {
  ZLIB_VERSION : string;
  sizeof_z_stream : Z
}.

(** The entry points of the zlib library that a compiled use of the header
    reaches, with the arguments of one call. *)
Inductive zcall : Type :=
| deflateInit2_ (strm : z_streamp)
    (level method windowBits memLevel strategy : int)
    (version : string) (stream_size : int)
| inflateInit2_ (strm : z_streamp) (windowBits : int)
    (version : string) (stream_size : int).

(** The arguments of a call, by the role zlib gives them. *)
Definition zcall_strm (c : zcall) : z_streamp :=
  match c with
  | deflateInit2_ strm _ _ _ _ _ _ _ => strm
  | inflateInit2_ strm _ _ _ => strm
  end.

Definition zcall_windowBits (c : zcall) : int :=
  match c with
  | deflateInit2_ _ _ _ windowBits _ _ _ _ => windowBits
  | inflateInit2_ _ windowBits _ _ => windowBits
  end.

Definition zcall_level (c : zcall) : option int :=
  match c with
  | deflateInit2_ _ level _ _ _ _ _ _ => Some level
  | inflateInit2_ _ _ _ _ => None
  end.

Definition zcall_method (c : zcall) : option int :=
  match c with
  | deflateInit2_ _ _ method _ _ _ _ _ => Some method
  | inflateInit2_ _ _ _ _ => None
  end.

Definition zcall_memLevel (c : zcall) : option int :=
  match c with
  | deflateInit2_ _ _ _ _ memLevel _ _ _ => Some memLevel
  | inflateInit2_ _ _ _ _ => None
  end.

Definition zcall_strategy (c : zcall) : option int :=
  match c with
  | deflateInit2_ _ _ _ _ _ strategy _ _ => Some strategy
  | inflateInit2_ _ _ _ _ => None
  end.

Definition zcall_version (c : zcall) : string :=
  match c with
  | deflateInit2_ _ _ _ _ _ _ version _ => version
  | inflateInit2_ _ _ version _ => version
  end.

Definition zcall_stream_size (c : zcall) : int :=
  match c with
  | deflateInit2_ _ _ _ _ _ _ _ stream_size => stream_size
  | inflateInit2_ _ _ _ stream_size => stream_size
  end.

(** ** Programs and machines *)

(** What a function body of the header may do: return a value, read or write
    a byte of memory, or call zlib and continue with its [int] answer. *)
Inductive prog (A : Type) : Type :=
| Ret (a : A)
| Load (a : N) (k : byte -> prog A)
| Store (a : N) (b : byte) (k : prog A)
| Extern (c : zcall) (k : int -> prog A).

Arguments Ret {A} a.
Arguments Load {A} a k.
Arguments Store {A} a b k.
Arguments Extern {A} c k.

Fixpoint bind {A B : Type} (p : prog A) (f : A -> prog B) : prog B :=
  match p with
  | Ret a => f a
  | Load a k => Load a (fun b => bind (k b) f)
  | Store a b k => Store a b (bind k f)
  | Extern c k => Extern c (fun r => bind (k r) f)
  end.

Declare Scope prog_scope.
Delimit Scope prog_scope with prog.
Notation "x <- p ;; q" := (bind p (fun x => q))
  (at level 61, p at next level, right associativity) : prog_scope.

(** The C statement [return e;] where [e] is an effectful expression:
    evaluate [e], and its value is the function's value. *)
Definition c_return {A : Type} (e : prog A) : prog A :=
  (x <- e ;; Ret x)%prog.

(** The machine a program runs on: a state [W] holding the memory and
    whatever zlib keeps, with zlib an arbitrary state transformer that
    answers each call with a result code. *)
Class Machine (W : Type) : Type := {
  load : N -> W -> byte;
  store : N -> byte -> W -> W;
  zlib : zcall -> W -> int * W
}.

(** What running a program leaves to observe. *)
Inductive event : Type :=
| EvLoad (a : N) (b : byte)
| EvStore (a : N) (b : byte)
| EvCall (c : zcall) (r : int).

Record outcome (W A : Type) : Type := Outcome {
  result : A;
  final : W;
  log : list event
}.

Arguments Outcome {W A} result final log.
Arguments result {W A} o.
Arguments final {W A} o.
Arguments log {W A} o.

Definition after {W A : Type} (e : event) (o : outcome W A) : outcome W A :=
  Outcome (result o) (final o) (e :: log o).

Fixpoint exec {W : Type} {M : Machine W} {A : Type}
  (p : prog A) (w : W) : outcome W A :=
  match p with
  | Ret a => Outcome a w []
  | Load a k => after (EvLoad a (load a w)) (exec (k (load a w)) w)
  | Store a b k => after (EvStore a b) (exec k (store a b w))
  | Extern c k =>
      after (EvCall c (fst (zlib c w)))
            (exec (k (fst (zlib c w))) (snd (zlib c w)))
  end.

(** Calling zlib directly and doing nothing else. *)
Definition direct {W : Type} {M : Machine W} (c : zcall) (w : W)
  : outcome W int :=
  Outcome (fst (zlib c w)) (snd (zlib c w)) [EvCall c (fst (zlib c w))].

(** ** The macros of [<zlib.h>] *)

Section Header.

Context {hdr : zlib_header}.

(** Modelled from the spec: [<zlib.h>] is not under src/.  Its macro
    [deflateInit2(strm, level, method, windowBits, memLevel, strategy)]
    stands for a call of [deflateInit2_] with the six arguments followed by
    [ZLIB_VERSION] and [(int)sizeof(z_stream)]. *)
Definition deflateInit2 (strm : z_streamp)
  (level method windowBits memLevel strategy : int) : prog int :=
  Extern (deflateInit2_ strm level method windowBits memLevel strategy
            ZLIB_VERSION (int_of_size_t sizeof_z_stream))
         Ret.

(** Modelled from the spec: [<zlib.h>] is not under src/.  Its macro
    [inflateInit2(strm, windowBits)] stands for a call of [inflateInit2_]
    with the two arguments followed by [ZLIB_VERSION] and
    [(int)sizeof(z_stream)]. *)
Definition inflateInit2 (strm : z_streamp) (windowBits : int) : prog int :=
  Extern (inflateInit2_ strm windowBits
            ZLIB_VERSION (int_of_size_t sizeof_z_stream))
         Ret.

(** ** The functions of CNIOExtrasZlib.h *)

(** Lines 19-26:
    [return deflateInit2(strm, level, method, windowBits, memLevel,
    strategy);] *)
Definition CNIOExtrasZlib_deflateInit2 (strm : z_streamp)
  (level method windowBits memLevel strategy : int) : prog int :=
  c_return (deflateInit2 strm level method windowBits memLevel strategy).

(** Lines 28-30: [return inflateInit2(strm, windowBits);] *)
Definition CNIOExtrasZlib_inflateInit2 (strm : z_streamp)
  (windowBits : int) : prog int :=
  c_return (inflateInit2 strm windowBits).

(** Lines 32-34: [return (Bytef * )in;] *)
Definition CNIOExtrasZlib_voidPtr_to_BytefPtr (in_ : ptr Tvoid)
  : prog (ptr TBytef) :=
  Ret (cast TBytef in_).

End Header.

(** ** Reading an outcome *)

(** The zlib calls of a log, in order. *)
Fixpoint calls (l : list event) : list zcall :=
  match l with
  | [] => []
  | EvCall c _ :: l' => c :: calls l'
  | _ :: l' => calls l'
  end.

(** The memory accesses of a log, in order. *)
Fixpoint accesses (l : list event) : list event :=
  match l with
  | [] => []
  | EvCall _ _ :: l' => accesses l'
  | e :: l' => e :: accesses l'
  end.

(** A program that calls zlib once and whose value is zlib's answer,
    whatever that answer is: the continuation of the call is [return r]
    for every code [r], so it neither tests nor rewrites the code. *)
Definition answers_unchanged (p : prog int) : Prop :=
  match p with
  | Extern _ k => forall r : int, k r = Ret r
  | _ => False
  end.

(** Modelled from the spec: zlib is not under src/.  The raw (headerless)
    stream format of the spec is the one zlib's initialization routines
    select when the [windowBits] they receive is negative; a non-negative
    [windowBits] selects a stream with a zlib or gzip header. *)
Definition requests_raw (c : zcall) : bool :=
  zcall_windowBits c <? 0.

(** Modelled from the spec: zlib's routines are not under src/.  A library
    that checks the version first: [accepts] is its test of the version
    string and structure size a caller was compiled with, and a call whose
    pair fails the test is answered [Z_VERSION_ERROR], whatever its other
    arguments and the state. *)
Definition checks_version_first {W : Type} {M : Machine W}
  (accepts : string -> int -> bool) : Prop :=
  forall (c : zcall) (w : W),
    accepts (zcall_version c) (zcall_stream_size c) = false ->
    fst (zlib c w) = Z_VERSION_ERROR.

(** ** A stand-in for the zlib library

    Used only to evaluate the statements at concrete inputs.  It keeps the
    order of zlib's entry checks: the version and structure size the caller
    was compiled with are compared with the library's own before anything
    else is looked at, then a null stream is refused, and otherwise the
    stream is recorded as initialised. *)

Record linked_zlib : Type := {
  my_version : string;
  my_sizeof_z_stream : Z
}.

Definition first_char (s : string) : ascii :=
  match s with
  | EmptyString => Ascii.zero
  | String a _ => a
  end.

Definition lib_accepts (l : linked_zlib) (version : string)
  (stream_size : int) : bool :=
  Ascii.eqb (first_char version) (first_char (my_version l))
  && (stream_size =? my_sizeof_z_stream l).

Record sim_world : Type := {
  mem : N -> byte;
  streams : list (N * bool)
}.

Definition sim_zlib (l : linked_zlib) (c : zcall) (w : sim_world)
  : int * sim_world :=
  if negb (lib_accepts l (zcall_version c) (zcall_stream_size c))
  then (Z_VERSION_ERROR, w)
  else if is_null (zcall_strm c)
  then (Z_STREAM_ERROR, w)
  else (Z_OK,
        {| mem := mem w;
           streams := (addr (zcall_strm c), requests_raw c) :: streams w |}).

Definition sim_machine (l : linked_zlib) : Machine sim_world := {|
  load := fun a w => mem w a;
  store := fun a b w =>
    {| mem := fun a' => if (a' =? a)%N then b else mem w a';
       streams := streams w |};
  zlib := sim_zlib l
|}.

Definition sim_start : sim_world :=
  {| mem := fun _ => x00; streams := [] |}.

(** A machine whose zlib answers every call with the same code. *)
Definition const_machine (r : int) : Machine unit := {|
  load := fun _ _ => x00;
  store := fun _ _ w => w;
  zlib := fun _ w => (r, w)
|}.

(** The header as compiled against zlib 1.2.11 on an LP64 target, a library
    of the same build, and one whose [z_stream] has the ILP32 size. *)
Definition hdr_1_2_11 : zlib_header :=
  {| ZLIB_VERSION := "1.2.11"; sizeof_z_stream := 112 |}.

Definition lib_1_2_11 : linked_zlib :=
  {| my_version := "1.2.11"; my_sizeof_z_stream := 112 |}.

Definition lib_ilp32 : linked_zlib :=
  {| my_version := "1.2.11"; my_sizeof_z_stream := 56 |}.

(** ** The size conversion of the macros *)

Lemma int_of_size_t_range (n : Z) :
  INT_MIN <= int_of_size_t n <= INT_MAX.
Proof.
  unfold int_of_size_t, INT_MIN, INT_MAX.
  pose proof (Z.mod_pos_bound (n + 2 ^ 31) (2 ^ 32) ltac:(lia)). lia.
Qed.

(** A structure size that fits an [int] is passed as it is. *)
Lemma int_of_size_t_small (n : Z) :
  0 <= n <= INT_MAX -> int_of_size_t n = n.
Proof.
  unfold int_of_size_t, INT_MAX. intro H.
  rewrite Z.mod_small by lia. lia.
Qed.

(** ** Running programs *)

Section Exec.

Context {W : Type} {M : Machine W}.

Lemma outcome_eta {A : Type} (o : outcome W A) :
  Outcome (result o) (final o) (log o) = o.
Proof. destruct o; reflexivity. Qed.

(** Running [x <- p ;; f x] is running [p], then [f] on its value from the
    state [p] left, with the two logs in sequence. *)
Lemma exec_bind {A B : Type} (p : prog A) (f : A -> prog B) :
  forall w : W,
    exec (bind p f) w =
    Outcome (result (exec (f (result (exec p w))) (final (exec p w))))
            (final (exec (f (result (exec p w))) (final (exec p w))))
            (log (exec p w)
               ++ log (exec (f (result (exec p w))) (final (exec p w)))).
Proof.
  induction p as [a | a k IH | a b k IH | c k IH]; intro w; cbn [bind exec].
  - cbn. now rewrite outcome_eta.
  - rewrite IH. reflexivity.
  - rewrite IH. reflexivity.
  - rewrite IH. reflexivity.
Qed.

(** [return e;] runs as [e] does. *)
Lemma exec_c_return {A : Type} (e : prog A) (w : W) :
  exec (c_return e) w = exec e w.
Proof.
  unfold c_return. rewrite exec_bind. cbn [exec result final log].
  rewrite app_nil_r. apply outcome_eta.
Qed.

(** A single call whose answer is the value runs as the direct call. *)
Lemma exec_extern_ret (c : zcall) (w : W) :
  exec (Extern c Ret) w = direct c w.
Proof. reflexivity. Qed.

End Exec.

(** ** The two initialization wrappers *)

Section Wrappers.

Context {hdr : zlib_header} {W : Type} {M : Machine W}.

(** The call a use of [deflateInit2] compiles to. *)
Lemma exec_deflateInit2 strm level method windowBits memLevel strategy
  (w : W) :
  exec (deflateInit2 strm level method windowBits memLevel strategy) w =
  direct (deflateInit2_ strm level method windowBits memLevel strategy
            ZLIB_VERSION (int_of_size_t sizeof_z_stream)) w.
Proof. unfold deflateInit2. apply exec_extern_ret. Qed.

Lemma exec_inflateInit2 strm windowBits (w : W) :
  exec (inflateInit2 strm windowBits) w =
  direct (inflateInit2_ strm windowBits
            ZLIB_VERSION (int_of_size_t sizeof_z_stream)) w.
Proof. unfold inflateInit2. apply exec_extern_ret. Qed.

Lemma exec_CNIOExtrasZlib_deflateInit2
  strm level method windowBits memLevel strategy (w : W) :
  exec (CNIOExtrasZlib_deflateInit2
          strm level method windowBits memLevel strategy) w =
  direct (deflateInit2_ strm level method windowBits memLevel strategy
            ZLIB_VERSION (int_of_size_t sizeof_z_stream)) w.
Proof.
  unfold CNIOExtrasZlib_deflateInit2.
  rewrite exec_c_return. apply exec_deflateInit2.
Qed.

Lemma exec_CNIOExtrasZlib_inflateInit2 strm windowBits (w : W) :
  exec (CNIOExtrasZlib_inflateInit2 strm windowBits) w =
  direct (inflateInit2_ strm windowBits
            ZLIB_VERSION (int_of_size_t sizeof_z_stream)) w.
Proof.
  unfold CNIOExtrasZlib_inflateInit2.
  rewrite exec_c_return. apply exec_inflateInit2.
Qed.

(** C1.  For every argument tuple, on every machine and from every state,
    the value of [CNIOExtrasZlib_deflateInit2] is the value the use of
    [deflateInit2] with the same arguments has, which is the code zlib
    answers; likewise [CNIOExtrasZlib_inflateInit2] and [inflateInit2].
    The code is not translated, remapped or filtered. *)
Theorem wrappers_return_zlib_result_code :
  forall (strm : z_streamp) (level method windowBits memLevel strategy : int)
         (strm' : z_streamp) (windowBits' : int) (w : W),
    (result (exec (CNIOExtrasZlib_deflateInit2
                     strm level method windowBits memLevel strategy) w)
     = result (exec (deflateInit2
                       strm level method windowBits memLevel strategy) w)
     /\ result (exec (CNIOExtrasZlib_deflateInit2
                        strm level method windowBits memLevel strategy) w)
        = fst (zlib (deflateInit2_
                       strm level method windowBits memLevel strategy
                       ZLIB_VERSION (int_of_size_t sizeof_z_stream)) w))
    /\
    (result (exec (CNIOExtrasZlib_inflateInit2 strm' windowBits') w)
     = result (exec (inflateInit2 strm' windowBits') w)
     /\ result (exec (CNIOExtrasZlib_inflateInit2 strm' windowBits') w)
        = fst (zlib (inflateInit2_ strm' windowBits'
                       ZLIB_VERSION (int_of_size_t sizeof_z_stream)) w)).
Proof.
  intros.
  rewrite exec_CNIOExtrasZlib_deflateInit2, exec_CNIOExtrasZlib_inflateInit2.
  rewrite exec_deflateInit2, exec_inflateInit2.
  repeat split.
Qed.

(** C2.  [CNIOExtrasZlib_deflateInit2] takes the compression level, the
    method, the window size, the memory level and the strategy as
    parameters, and the one call it makes hands each of them (and the
    stream) to [deflateInit2_] in the role of the same name: none is
    dropped, reordered, defaulted or altered. *)
Theorem deflate_parameters_forwarded :
  forall (strm : z_streamp) (level method windowBits memLevel strategy : int)
         (w : W),
  exists c : zcall,
    calls (log (exec (CNIOExtrasZlib_deflateInit2
                        strm level method windowBits memLevel strategy) w))
    = [c]
    /\ c = deflateInit2_ strm level method windowBits memLevel strategy
             ZLIB_VERSION (int_of_size_t sizeof_z_stream)
    /\ zcall_strm c = strm
    /\ zcall_level c = Some level
    /\ zcall_method c = Some method
    /\ zcall_windowBits c = windowBits
    /\ zcall_memLevel c = Some memLevel
    /\ zcall_strategy c = Some strategy.
Proof.
  intros. eexists.
  rewrite exec_CNIOExtrasZlib_deflateInit2. unfold direct.
  cbn [log calls].
  split; [reflexivity |]. repeat split.
Qed.

(** C3.  A wrapper call is the single delegated zlib call and nothing
    else: its value, the state it leaves and its log are those of calling
    the zlib routine directly; the log is that one call, with no memory
    access of the shim's own. *)
Theorem wrappers_add_no_effect :
  forall (strm : z_streamp) (level method windowBits memLevel strategy : int)
         (strm' : z_streamp) (windowBits' : int) (w : W),
    let d := exec (CNIOExtrasZlib_deflateInit2
                     strm level method windowBits memLevel strategy) w in
    let cd := deflateInit2_ strm level method windowBits memLevel strategy
                ZLIB_VERSION (int_of_size_t sizeof_z_stream) in
    let i := exec (CNIOExtrasZlib_inflateInit2 strm' windowBits') w in
    let ci := inflateInit2_ strm' windowBits'
                ZLIB_VERSION (int_of_size_t sizeof_z_stream) in
    (d = exec (deflateInit2
                 strm level method windowBits memLevel strategy) w
     /\ d = direct cd w
     /\ final d = snd (zlib cd w)
     /\ log d = [EvCall cd (result d)]
     /\ accesses (log d) = [])
    /\
    (i = exec (inflateInit2 strm' windowBits') w
     /\ i = direct ci w
     /\ final i = snd (zlib ci w)
     /\ log i = [EvCall ci (result i)]
     /\ accesses (log i) = []).
Proof.
  intros. subst d cd i ci.
  rewrite exec_CNIOExtrasZlib_deflateInit2, exec_CNIOExtrasZlib_inflateInit2.
  rewrite exec_deflateInit2, exec_inflateInit2.
  unfold direct; cbn [result final log accesses].
  repeat split.
Qed.

End Wrappers.

(** ** The pointer-cast helper *)

Section Cast.

Context {W : Type} {M : Machine W}.

Lemma cast_addr {s : ctype} (t : ctype) (p : ptr s) :
  addr (cast t p) = addr p.
Proof. reflexivity. Qed.

Lemma cast_back {s : ctype} (t : ctype) (p : ptr s) :
  cast s (cast t p) = p.
Proof. destruct p as [a]. reflexivity. Qed.

Lemma ptr_ext {t : ctype} (p q : ptr t) : addr p = addr q -> p = q.
Proof. destruct p, q; cbn; intros ->; reflexivity. Qed.

(** C4.  [CNIOExtrasZlib_voidPtr_to_BytefPtr] only changes the static type
    of its argument: for every [void] pointer, the null pointer included,
    the [Bytef] pointer it returns holds the same address, and the call
    leaves the state as it found it with no memory read or written (its log
    is empty). *)
Theorem voidPtr_to_BytefPtr_same_address :
  forall (p : ptr Tvoid) (w : W),
    let o := exec (CNIOExtrasZlib_voidPtr_to_BytefPtr p) w in
    addr (result o) = addr p
    /\ is_null (result o) = is_null p
    /\ result (exec (CNIOExtrasZlib_voidPtr_to_BytefPtr (NULL Tvoid)) w)
       = NULL TBytef
    /\ final o = w
    /\ log o = [].
Proof.
  intros p w o. subst o. unfold CNIOExtrasZlib_voidPtr_to_BytefPtr.
  cbn [exec result final log].
  rewrite cast_addr. unfold is_null. rewrite cast_addr.
  repeat split.
Qed.

(** C7.  Converting the helper's result back to a [void] pointer gives the
    argument again, and the null pointer is mapped to the null pointer.
    The helper is total and deterministic: from every state of every
    machine it returns, and its value is the cast of its argument, whatever
    the state. *)
Theorem voidPtr_to_BytefPtr_round_trip :
  forall (p : ptr Tvoid) (w w' : W),
    cast Tvoid (result (exec (CNIOExtrasZlib_voidPtr_to_BytefPtr p) w)) = p
    /\ cast Tvoid
         (result (exec (CNIOExtrasZlib_voidPtr_to_BytefPtr (NULL Tvoid)) w))
       = NULL Tvoid
    /\ (exists q : ptr TBytef,
           exec (CNIOExtrasZlib_voidPtr_to_BytefPtr p) w = Outcome q w [])
    /\ result (exec (CNIOExtrasZlib_voidPtr_to_BytefPtr p) w)
       = result (exec (CNIOExtrasZlib_voidPtr_to_BytefPtr p) w').
Proof.
  intros p w w'. unfold CNIOExtrasZlib_voidPtr_to_BytefPtr.
  cbn [exec result].
  split; [apply cast_back |].
  split; [apply ptr_ext; reflexivity |].
  split; [eexists; reflexivity | reflexivity].
Qed.

End Cast.

(** ** Stream format, failures and argument checks *)

Section Delegation.

Context {hdr : zlib_header} {W : Type} {M : Machine W}.

Lemma answers_unchanged_c_return_extern (c : zcall) :
  answers_unchanged (c_return (Extern c Ret)).
Proof. intro r. reflexivity. Qed.

(** Whether a one-call list asks for the raw format is read off the
    [windowBits] of that call. *)
Lemma Forall_singleton_raw (c : zcall) :
  Forall (fun c' => requests_raw c' = true) [c] <-> zcall_windowBits c < 0.
Proof.
  unfold requests_raw. split.
  - intro H. inversion H as [| ? ? Hc _]; subst. now apply Z.ltb_lt.
  - intro H. constructor; [now apply Z.ltb_lt | constructor].
Qed.

Lemma Forall_singleton_not_raw (c : zcall) :
  Forall (fun c' => requests_raw c' = false) [c] <-> 0 <= zcall_windowBits c.
Proof.
  unfold requests_raw. split.
  - intro H. inversion H as [| ? ? Hc _]; subst.
    apply Z.ltb_ge in Hc. exact Hc.
  - intro H. constructor; [now apply Z.ltb_ge | constructor].
Qed.

(** C5, as amended.  Each wrapper delegates every call to zlib's routine
    of its own kind, [CNIOExtrasZlib_deflateInit2] to [deflateInit2_] and
    [CNIOExtrasZlib_inflateInit2] to [inflateInit2_], on the caller's
    stream and with the caller's [windowBits] and other arguments
    unchanged: the wrapper runs as that one direct call.  The shim does not
    itself select the raw format: the calls of a wrapper ask zlib for it
    exactly when the caller's [windowBits] is negative. *)
Theorem wrappers_forward_stream_format :
  forall (strm : z_streamp) (level method windowBits memLevel strategy : int)
         (strm' : z_streamp) (windowBits' : int) (w : W),
    let d := exec (CNIOExtrasZlib_deflateInit2
                     strm level method windowBits memLevel strategy) w in
    let i := exec (CNIOExtrasZlib_inflateInit2 strm' windowBits') w in
    (d = direct (deflateInit2_
                   strm level method windowBits memLevel strategy
                   ZLIB_VERSION (int_of_size_t sizeof_z_stream)) w
     /\ calls (log d)
        = [deflateInit2_ strm level method windowBits memLevel strategy
             ZLIB_VERSION (int_of_size_t sizeof_z_stream)]
     /\ map zcall_windowBits (calls (log d)) = [windowBits]
     /\ (Forall (fun c => requests_raw c = true) (calls (log d))
         <-> windowBits < 0)
     /\ (Forall (fun c => requests_raw c = false) (calls (log d))
         <-> 0 <= windowBits))
    /\
    (i = direct (inflateInit2_ strm' windowBits'
                   ZLIB_VERSION (int_of_size_t sizeof_z_stream)) w
     /\ calls (log i)
        = [inflateInit2_ strm' windowBits'
             ZLIB_VERSION (int_of_size_t sizeof_z_stream)]
     /\ map zcall_windowBits (calls (log i)) = [windowBits']
     /\ (Forall (fun c => requests_raw c = true) (calls (log i))
         <-> windowBits' < 0)
     /\ (Forall (fun c => requests_raw c = false) (calls (log i))
         <-> 0 <= windowBits')).
Proof.
  intros. subst d i.
  rewrite exec_CNIOExtrasZlib_deflateInit2, exec_CNIOExtrasZlib_inflateInit2.
  unfold direct; cbn [log calls map zcall_windowBits].
  split; (split; [reflexivity |]); (split; [reflexivity |]);
    (split; [reflexivity |]); split.
  - apply Forall_singleton_raw.
  - apply Forall_singleton_not_raw.
  - apply Forall_singleton_raw.
  - apply Forall_singleton_not_raw.
Qed.

(** C6.  The shim has no failure of its own.  In each wrapper the
    continuation of the zlib call is [return r] for every code [r], so
    there is no error branch and no code of the shim's own; and whenever
    the caller observes a code [r] other than [Z_OK], that code is the
    answer zlib gave to the wrapper's one call. *)
Theorem shim_has_no_failure_mode :
  forall (strm : z_streamp) (level method windowBits memLevel strategy : int)
         (strm' : z_streamp) (windowBits' : int) (w : W) (r : int),
    r <> Z_OK ->
    answers_unchanged (CNIOExtrasZlib_deflateInit2
                         strm level method windowBits memLevel strategy)
    /\ answers_unchanged (CNIOExtrasZlib_inflateInit2 strm' windowBits')
    /\ (result (exec (CNIOExtrasZlib_deflateInit2
                        strm level method windowBits memLevel strategy) w)
        = r ->
        let c := deflateInit2_ strm level method windowBits memLevel strategy
                   ZLIB_VERSION (int_of_size_t sizeof_z_stream) in
        fst (zlib c w) = r
        /\ log (exec (CNIOExtrasZlib_deflateInit2
                        strm level method windowBits memLevel strategy) w)
           = [EvCall c r])
    /\ (result (exec (CNIOExtrasZlib_inflateInit2 strm' windowBits') w) = r ->
        let c := inflateInit2_ strm' windowBits'
                   ZLIB_VERSION (int_of_size_t sizeof_z_stream) in
        fst (zlib c w) = r
        /\ log (exec (CNIOExtrasZlib_inflateInit2 strm' windowBits') w)
           = [EvCall c r]).
Proof.
  intros strm level method windowBits memLevel strategy strm' windowBits'
         w r _.
  split; [apply answers_unchanged_c_return_extern |].
  split; [apply answers_unchanged_c_return_extern |].
  rewrite exec_CNIOExtrasZlib_deflateInit2, exec_CNIOExtrasZlib_inflateInit2.
  unfold direct; cbn [result log].
  split; intros <-; split; reflexivity.
Qed.

(** C8.  Whatever the caller passes, a wrapper runs as one call of
    [deflateInit2_] / [inflateInit2_] that carries, after the caller's
    arguments, the [ZLIB_VERSION] and [(int)sizeof(z_stream)] of the
    header's compilation: every call in its log has that version and that
    size, and no argument of the wrapper reaches them.  If, moreover, the
    linked library checks the version first and does not accept that pair,
    each wrapper returns [Z_VERSION_ERROR] for all explicit arguments, the
    code zlib gave to that one call. *)
Theorem hidden_version_arguments :
  forall (strm : z_streamp) (level method windowBits memLevel strategy : int)
         (strm' : z_streamp) (windowBits' : int) (w : W),
    let d := exec (CNIOExtrasZlib_deflateInit2
                     strm level method windowBits memLevel strategy) w in
    let cd := deflateInit2_ strm level method windowBits memLevel strategy
                ZLIB_VERSION (int_of_size_t sizeof_z_stream) in
    let i := exec (CNIOExtrasZlib_inflateInit2 strm' windowBits') w in
    let ci := inflateInit2_ strm' windowBits'
                ZLIB_VERSION (int_of_size_t sizeof_z_stream) in
    (d = direct cd w
     /\ map zcall_version (calls (log d)) = [ZLIB_VERSION]
     /\ map zcall_stream_size (calls (log d))
        = [int_of_size_t sizeof_z_stream])
    /\
    (i = direct ci w
     /\ map zcall_version (calls (log i)) = [ZLIB_VERSION]
     /\ map zcall_stream_size (calls (log i))
        = [int_of_size_t sizeof_z_stream])
    /\
    (forall accepts : string -> int -> bool,
        checks_version_first accepts ->
        accepts ZLIB_VERSION (int_of_size_t sizeof_z_stream) = false ->
        (result d = Z_VERSION_ERROR
         /\ log d = [EvCall cd Z_VERSION_ERROR])
        /\ (result i = Z_VERSION_ERROR
            /\ log i = [EvCall ci Z_VERSION_ERROR])).
Proof.
  intros. subst d i.
  rewrite exec_CNIOExtrasZlib_deflateInit2, exec_CNIOExtrasZlib_inflateInit2.
  fold cd ci. unfold direct; cbn [result log calls map].
  split; [repeat split |]. split; [repeat split |].
  intros accepts Hgate Hbad.
  assert (Hd : fst (zlib cd w) = Z_VERSION_ERROR)
    by (apply Hgate; exact Hbad).
  assert (Hi : fst (zlib ci w) = Z_VERSION_ERROR)
    by (apply Hgate; exact Hbad).
  rewrite Hd, Hi. repeat split.
Qed.

End Delegation.

(** ** What the shim leaves to zlib *)

(** C9.  Neither wrapper checks an argument.  For every stream pointer,
    the null pointer included, and all integers, in or out of the range
    zlib accepts, the wrapper runs as the direct zlib call on exactly those
    values, on every machine; and the outcome is zlib's alone: whatever the
    arguments, for each code [r] a zlib that answers [r] makes the wrapper
    return [r]. *)
Theorem wrappers_validate_nothing :
  forall (hdr : zlib_header)
         (strm : z_streamp) (level method windowBits memLevel strategy : int)
         (strm' : z_streamp) (windowBits' : int),
    (forall (W : Type) (M : Machine W) (w : W),
        exec (CNIOExtrasZlib_deflateInit2
                strm level method windowBits memLevel strategy) w
        = direct (deflateInit2_
                    strm level method windowBits memLevel strategy
                    ZLIB_VERSION (int_of_size_t sizeof_z_stream)) w
        /\ exec (CNIOExtrasZlib_inflateInit2 strm' windowBits') w
           = direct (inflateInit2_ strm' windowBits'
                       ZLIB_VERSION (int_of_size_t sizeof_z_stream)) w)
    /\
    (forall r : int,
        result (exec (M := const_machine r)
                  (CNIOExtrasZlib_deflateInit2
                     strm level method windowBits memLevel strategy) tt) = r
        /\ result (exec (M := const_machine r)
                     (CNIOExtrasZlib_inflateInit2 strm' windowBits') tt) = r).
Proof.
  intros. split.
  - intros W M w.
    now rewrite exec_CNIOExtrasZlib_deflateInit2,
                exec_CNIOExtrasZlib_inflateInit2.
  - intro r.
    rewrite exec_CNIOExtrasZlib_deflateInit2,
            exec_CNIOExtrasZlib_inflateInit2.
    split; reflexivity.
Qed.

(** ** Concrete runs *)

(** C5, as first stated, fails: with [windowBits = 15] (deflate) and
    [windowBits = 31] (inflate) each wrapper's call reaches zlib with a
    non-negative [windowBits], which does not ask for the raw format, and
    the library initialises the stream as a non-raw one. *)
Lemma raw_format_not_selected_by_shim :
  (exists c : zcall,
      In c (calls (log (exec (M := sim_machine lib_1_2_11)
                          (CNIOExtrasZlib_deflateInit2 (hdr := hdr_1_2_11)
                             (Ptr Tz_stream 4096) 6 8 15 8 0)
                          sim_start)))
      /\ requests_raw c = false)
  /\ (exists c : zcall,
         In c (calls (log (exec (M := sim_machine lib_1_2_11)
                             (CNIOExtrasZlib_inflateInit2 (hdr := hdr_1_2_11)
                                (Ptr Tz_stream 4096) 31)
                             sim_start)))
         /\ requests_raw c = false)
  /\ streams (final (exec (M := sim_machine lib_1_2_11)
                       (CNIOExtrasZlib_deflateInit2 (hdr := hdr_1_2_11)
                          (Ptr Tz_stream 4096) 6 8 15 8 0)
                       sim_start))
     = [(4096%N, false)].
Proof.
  split; [| split].
  - eexists. split; [left; reflexivity | reflexivity].
  - eexists. split; [left; reflexivity | reflexivity].
  - reflexivity.
Qed.

(** C6 at a failing call: a null stream on the stand-in library.  The code
    the caller sees, [Z_STREAM_ERROR], is the library's answer. *)
Lemma shim_has_no_failure_mode_witness :
  Z_STREAM_ERROR <> Z_OK
  /\ result (exec (M := sim_machine lib_1_2_11)
               (CNIOExtrasZlib_deflateInit2 (hdr := hdr_1_2_11)
                  (NULL Tz_stream) 6 8 15 8 0)
               sim_start) = Z_STREAM_ERROR
  /\ log (exec (M := sim_machine lib_1_2_11)
            (CNIOExtrasZlib_deflateInit2 (hdr := hdr_1_2_11)
               (NULL Tz_stream) 6 8 15 8 0)
            sim_start)
     = [EvCall (deflateInit2_ (NULL Tz_stream) 6 8 15 8 0 "1.2.11" 112)
          Z_STREAM_ERROR].
Proof.
  assert (Hne : Z_STREAM_ERROR <> Z_OK) by (intro H; discriminate H).
  split; [exact Hne |].
  split; [reflexivity |].
  exact (proj2 (proj1 (proj2 (proj2
           (shim_has_no_failure_mode
              (hdr := hdr_1_2_11) (M := sim_machine lib_1_2_11)
              (NULL Tz_stream) 6 8 15 8 0 (NULL Tz_stream) 15
              sim_start Z_STREAM_ERROR Hne)))
           eq_refl)).
Defined.

(** C8 at a library whose [z_stream] has another size than the header was
    compiled with: both wrappers return [Z_VERSION_ERROR]. *)
Lemma hidden_version_arguments_witness :
  lib_accepts lib_ilp32 "1.2.11" 112 = false
  /\ result (exec (M := sim_machine lib_ilp32)
               (CNIOExtrasZlib_deflateInit2 (hdr := hdr_1_2_11)
                  (Ptr Tz_stream 4096) 6 8 15 8 0)
               sim_start) = Z_VERSION_ERROR
  /\ result (exec (M := sim_machine lib_ilp32)
               (CNIOExtrasZlib_inflateInit2 (hdr := hdr_1_2_11)
                  (Ptr Tz_stream 4096) 15)
               sim_start) = Z_VERSION_ERROR.
Proof.
  assert (Hgate : checks_version_first (M := sim_machine lib_ilp32)
                    (lib_accepts lib_ilp32)).
  { intros c w H. cbn [zlib sim_machine]. unfold sim_zlib.
    rewrite H. reflexivity. }
  assert (Hbad : lib_accepts lib_ilp32
                   (ZLIB_VERSION (zlib_header := hdr_1_2_11))
                   (int_of_size_t
                      (sizeof_z_stream (zlib_header := hdr_1_2_11)))
                 = false) by reflexivity.
  pose proof (proj2 (proj2 (hidden_version_arguments
                (hdr := hdr_1_2_11) (M := sim_machine lib_ilp32)
                (Ptr Tz_stream 4096) 6 8 15 8 0 (Ptr Tz_stream 4096) 15
                sim_start))
              (lib_accepts lib_ilp32) Hgate Hbad) as [[Hd _] [Hi _]].
  split; [reflexivity |].
  split; [exact Hd | exact Hi].
Defined.

(** ** The functions in a caller's code

    A caller uses a function of the header inside a larger body: it binds
    the value and goes on.  The statements below are about such bodies, on
    every machine. *)

Section Callers.

Context {hdr : zlib_header} {W : Type} {M : Machine W}.

Lemma exec_bind_direct {A : Type} (p : prog int) (c : zcall)
  (f : int -> prog A) (w : W) :
  exec p w = direct c w ->
  exec (bind p f) w = exec (Extern c f) w.
Proof.
  intro Hp. rewrite exec_bind, Hp. unfold direct.
  cbn [exec result final log app]. reflexivity.
Qed.

(** X1.  A body that calls a wrapper and goes on with its value runs as the
    body that calls the zlib routine in its place: the wrapper can be
    inlined in any context. *)
Theorem init_wrappers_inline_in_any_context :
  forall (A : Type) (f : int -> prog A)
         (strm : z_streamp) (level method windowBits memLevel strategy : int)
         (strm' : z_streamp) (windowBits' : int) (w : W),
    exec (r <- CNIOExtrasZlib_deflateInit2
                 strm level method windowBits memLevel strategy ;; f r)%prog w
    = exec (Extern (deflateInit2_
                      strm level method windowBits memLevel strategy
                      ZLIB_VERSION (int_of_size_t sizeof_z_stream)) f) w
    /\
    exec (r <- CNIOExtrasZlib_inflateInit2 strm' windowBits' ;; f r)%prog w
    = exec (Extern (inflateInit2_ strm' windowBits'
                      ZLIB_VERSION (int_of_size_t sizeof_z_stream)) f) w.
Proof.
  intros. split.
  - apply exec_bind_direct, exec_CNIOExtrasZlib_deflateInit2.
  - apply exec_bind_direct, exec_CNIOExtrasZlib_inflateInit2.
Qed.

(** X2.  The shim keeps nothing between calls.  Initialising twice with
    the same arguments reaches zlib twice with the same call; the second
    call is answered from the state the first one left, and neither is
    suppressed or answered from a remembered code. *)
Theorem repeated_init_reaches_zlib_each_time :
  forall (strm : z_streamp) (level method windowBits memLevel strategy : int)
         (strm' : z_streamp) (windowBits' : int) (w : W),
    let cd := deflateInit2_ strm level method windowBits memLevel strategy
                ZLIB_VERSION (int_of_size_t sizeof_z_stream) in
    let ci := inflateInit2_ strm' windowBits'
                ZLIB_VERSION (int_of_size_t sizeof_z_stream) in
    let dd := exec (r1 <- CNIOExtrasZlib_deflateInit2
                            strm level method windowBits memLevel strategy ;;
                    r2 <- CNIOExtrasZlib_deflateInit2
                            strm level method windowBits memLevel strategy ;;
                    Ret (r1, r2))%prog w in
    let ii := exec (r1 <- CNIOExtrasZlib_inflateInit2 strm' windowBits' ;;
                    r2 <- CNIOExtrasZlib_inflateInit2 strm' windowBits' ;;
                    Ret (r1, r2))%prog w in
    (calls (log dd) = [cd; cd]
     /\ result dd = (fst (zlib cd w), fst (zlib cd (snd (zlib cd w))))
     /\ final dd = snd (zlib cd (snd (zlib cd w))))
    /\
    (calls (log ii) = [ci; ci]
     /\ result ii = (fst (zlib ci w), fst (zlib ci (snd (zlib ci w))))
     /\ final ii = snd (zlib ci (snd (zlib ci w)))).
Proof.
  intros. subst dd ii.
  rewrite (exec_bind_direct _ cd) by apply exec_CNIOExtrasZlib_deflateInit2.
  rewrite (exec_bind_direct _ ci) by apply exec_CNIOExtrasZlib_inflateInit2.
  cbn [exec].
  rewrite (exec_bind_direct _ cd) by apply exec_CNIOExtrasZlib_deflateInit2.
  rewrite (exec_bind_direct _ ci) by apply exec_CNIOExtrasZlib_inflateInit2.
  cbn [exec after result final log calls].
  repeat split.
Qed.

(** X3.  A body that initialises a deflate stream and then an inflate
    stream makes the two zlib calls in that order, the second from the
    state the first left; its log is those two calls and nothing else. *)
Theorem deflate_then_inflate_in_order :
  forall (strm : z_streamp) (level method windowBits memLevel strategy : int)
         (strm' : z_streamp) (windowBits' : int) (w : W),
    let cd := deflateInit2_ strm level method windowBits memLevel strategy
                ZLIB_VERSION (int_of_size_t sizeof_z_stream) in
    let ci := inflateInit2_ strm' windowBits'
                ZLIB_VERSION (int_of_size_t sizeof_z_stream) in
    let o := exec (r1 <- CNIOExtrasZlib_deflateInit2
                           strm level method windowBits memLevel strategy ;;
                   r2 <- CNIOExtrasZlib_inflateInit2 strm' windowBits' ;;
                   Ret (r1, r2))%prog w in
    log o = [EvCall cd (fst (zlib cd w));
             EvCall ci (fst (zlib ci (snd (zlib cd w))))]
    /\ result o = (fst (zlib cd w), fst (zlib ci (snd (zlib cd w))))
    /\ final o = snd (zlib ci (snd (zlib cd w))).
Proof.
  intros. subst o.
  rewrite (exec_bind_direct _ cd) by apply exec_CNIOExtrasZlib_deflateInit2.
  cbn [exec].
  rewrite (exec_bind_direct _ ci) by apply exec_CNIOExtrasZlib_inflateInit2.
  cbn [exec after result final log].
  repeat split.
Qed.

(** X4.  The cast helper commutes with an initialization: casting before
    or after the wrapper's call gives the same values, the same state and
    the same log. *)
Theorem cast_commutes_with_init :
  forall (p : ptr Tvoid)
         (strm : z_streamp) (level method windowBits memLevel strategy : int)
         (strm' : z_streamp) (windowBits' : int) (w : W),
    exec (q <- CNIOExtrasZlib_voidPtr_to_BytefPtr p ;;
          r <- CNIOExtrasZlib_deflateInit2
                 strm level method windowBits memLevel strategy ;;
          Ret (q, r))%prog w
    = exec (r <- CNIOExtrasZlib_deflateInit2
                   strm level method windowBits memLevel strategy ;;
            q <- CNIOExtrasZlib_voidPtr_to_BytefPtr p ;;
            Ret (q, r))%prog w
    /\
    exec (q <- CNIOExtrasZlib_voidPtr_to_BytefPtr p ;;
          r <- CNIOExtrasZlib_inflateInit2 strm' windowBits' ;;
          Ret (q, r))%prog w
    = exec (r <- CNIOExtrasZlib_inflateInit2 strm' windowBits' ;;
            q <- CNIOExtrasZlib_voidPtr_to_BytefPtr p ;;
            Ret (q, r))%prog w.
Proof.
  intros. split.
  - rewrite (exec_bind (CNIOExtrasZlib_voidPtr_to_BytefPtr p)).
    unfold CNIOExtrasZlib_voidPtr_to_BytefPtr.
    cbn [exec result final log app].
    rewrite !(exec_bind_direct _ _ _ _
                (exec_CNIOExtrasZlib_deflateInit2 _ _ _ _ _ _ _)).
    cbn [exec bind after result final log]. reflexivity.
  - rewrite (exec_bind (CNIOExtrasZlib_voidPtr_to_BytefPtr p)).
    unfold CNIOExtrasZlib_voidPtr_to_BytefPtr.
    cbn [exec result final log app].
    rewrite !(exec_bind_direct _ _ _ _
                (exec_CNIOExtrasZlib_inflateInit2 _ _ _)).
    cbn [exec bind after result final log]. reflexivity.
Qed.

(** X5.  The cast helper keeps pointers apart: two calls return the same
    [Bytef] pointer exactly when their arguments are the same [void]
    pointer, from whatever states they run. *)
Theorem voidPtr_to_BytefPtr_injective :
  forall (p q : ptr Tvoid) (w w' : W),
    result (exec (CNIOExtrasZlib_voidPtr_to_BytefPtr p) w)
    = result (exec (CNIOExtrasZlib_voidPtr_to_BytefPtr q) w')
    <-> p = q.
Proof.
  intros p q w w'. unfold CNIOExtrasZlib_voidPtr_to_BytefPtr.
  cbn [exec result]. split.
  - intro H. apply ptr_ext.
    rewrite <- (cast_addr TBytef p), <- (cast_addr TBytef q).
    now rewrite H.
  - now intros ->.
Qed.

(** X6.  The call a wrapper makes determines its arguments: two uses of
    [CNIOExtrasZlib_deflateInit2] make the same zlib call exactly when all
    six arguments agree, and two uses of [CNIOExtrasZlib_inflateInit2]
    exactly when both do.  No two settings are merged on the way. *)
Theorem init_arguments_determine_call :
  forall (s1 s2 : z_streamp) (l1 l2 m1 m2 b1 b2 k1 k2 t1 t2 : int)
         (w1 w2 : W),
    (calls (log (exec (CNIOExtrasZlib_deflateInit2 s1 l1 m1 b1 k1 t1) w1))
     = calls (log (exec (CNIOExtrasZlib_deflateInit2 s2 l2 m2 b2 k2 t2) w2))
     <-> (s1, l1, m1, b1, k1, t1) = (s2, l2, m2, b2, k2, t2))
    /\
    (calls (log (exec (CNIOExtrasZlib_inflateInit2 s1 b1) w1))
     = calls (log (exec (CNIOExtrasZlib_inflateInit2 s2 b2) w2))
     <-> (s1, b1) = (s2, b2)).
Proof.
  intros.
  rewrite !exec_CNIOExtrasZlib_deflateInit2, !exec_CNIOExtrasZlib_inflateInit2.
  unfold direct; cbn [log calls].
  split; split; intro H; inversion H; subst; reflexivity.
Qed.

End Callers.
